(** * Runtime shape validators of [src/interfaceTS.ts]

    The type guards [order], [isUser] and [isString], the caller
    [orderDelivery], the narrowing examples [getDataType], [getData],
    [orderProduct] and [processUnknownData], the two sample predicates, and
    the trailing duplicate copies of [order], [orderDelivery],
    [orderProduct] and [isString], embedded over a small model of the
    values and of the object heap of the language runtime.

    Scope of the model.  The property table of an object holds its data
    properties, as a property read ([o.k]) and the [in] operator see them,
    own or inherited.  Accessor properties and the [get] traps of proxies,
    whose reads run arbitrary code, are kept in a table of getters beside
    the heap: [Accessors] embeds [order] and [orderDelivery] over it, and
    the embeddings over data properties are their restriction to the
    candidates without getters. *)

From Stdlib Require Import Floats.PrimFloat Floats.FloatOps Floats.SpecFloat.
From stdpp Require Import base option strings gmap pretty.

Local Open Scope string_scope.

(** ** Values and the object heap *)

Abbreviation loc := positive.

(** The eight runtime types of the language; an object is a reference into
    the heap. *)
Inductive value : Type :=
  | VUndefined
  | VNull
  | VBool (b : bool)
  | VNumber (x : float)
  | VBigInt (z : Z)
  | VString (s : string)
  | VSymbol (id : positive)
  | VRef (l : loc).

(** A heap object: whether it can be called (a function), whether it is an
    array exotic object, and its property table. *)
Record object : Type := Object {
  callable : bool;
  is_array : bool;
  props : gmap string value
}.

Abbreviation heap := (gmap loc object).

Definition plain (ps : gmap string value) : object := Object false false ps.
Definition array (ps : gmap string value) : object := Object false true ps.
Definition function (ps : gmap string value) : object := Object true false ps.

(** The object a reference denotes.  The heap is read as a total map of
    finite support: a location outside its domain holds an ordinary object
    without properties. *)
Definition obj_at (h : heap) (l : loc) : object := default (plain ∅) (h !! l).

(** ** Outcomes and the evaluation monad *)

Inductive error : Type := TypeError.

(** The result of evaluating an expression: a value, a thrown error, or
    [Unmodelled] for the operations whose result depends on parts of the
    runtime library that are not described here (property reads on the
    wrappers of primitives, the conversion of numbers and objects to
    strings). *)
Inductive outcome (A : Type) : Type :=
  | Ok (a : A)
  | Throw (e : error)
  | Unmodelled.
Arguments Ok {A} a.
Arguments Throw {A} e.
Arguments Unmodelled {A}.

(** A computation reads the heap and returns the heap it leaves behind. *)
Definition M (A : Type) : Type := heap → outcome A * heap.

Definition ret {A} (a : A) : M A := λ h, (Ok a, h).
Definition throw {A} (e : error) : M A := λ h, (Throw e, h).
Definition unmodelled {A} : M A := λ h, (Unmodelled, h).

Definition bind {A B} (m : M A) (k : A → M B) : M B := λ h,
  match m h with
  | (Ok a, h') => k a h'
  | (Throw e, h') => (Throw e, h')
  | (Unmodelled, h') => (Unmodelled, h')
  end.

Declare Scope js_scope.
Delimit Scope js_scope with js.
Notation "x <- m ;; k" := (bind m (λ x, k))
  (at level 100, m at next level, right associativity) : js_scope.

(** [a && b]: the right operand is evaluated only if the left one is true
    (all operands below are booleans). *)
Definition andM (a b : M bool) : M bool :=
  (x <- a ;; if x then b else ret false)%js.
Infix "&&&" := andM (at level 40, left associativity) : js_scope.

(** ** Operators *)

(** [typeof v] *)
Definition typeof_tag (h : heap) (v : value) : string :=
  match v with
  | VUndefined => "undefined"
  | VNull => "object"
  | VBool _ => "boolean"
  | VNumber _ => "number"
  | VBigInt _ => "bigint"
  | VString _ => "string"
  | VSymbol _ => "symbol"
  | VRef l => if callable (obj_at h l) then "function" else "object"
  end.

Definition typeof (v : value) : M value := λ h, (Ok (VString (typeof_tag h v)), h).

(** Strict equality [a === b]: no conversion; numbers compare as IEEE
    doubles, objects by identity. *)
Definition strict_equal (a b : value) : bool :=
  match a, b with
  | VUndefined, VUndefined => true
  | VNull, VNull => true
  | VBool x, VBool y => bool_decide (x = y)
  | VNumber x, VNumber y => PrimFloat.eqb x y
  | VBigInt x, VBigInt y => bool_decide (x = y)
  | VString x, VString y => bool_decide (x = y)
  | VSymbol x, VSymbol y => bool_decide (x = y)
  | VRef x, VRef y => bool_decide (x = y)
  | _, _ => false
  end.

Definition strict_eq (a b : value) : M bool := ret (strict_equal a b).
Definition strict_ne (a b : value) : M bool := ret (negb (strict_equal a b)).

(** Property read [v.k]: a [TypeError] on [null] and [undefined]; on an
    object the value in its table, [undefined] when the property is absent. *)
Definition get (v : value) (k : string) : M value := λ h,
  match v with
  | VUndefined | VNull => (Throw TypeError, h)
  | VRef l => (Ok (default VUndefined (props (obj_at h l) !! k)), h)
  | _ => (Unmodelled, h)
  end.

(** [k in v]: a [TypeError] unless [v] is an object. *)
Definition has_property (k : string) (v : value) : M bool := λ h,
  match v with
  | VRef l => (Ok (bool_decide (is_Some (props (obj_at h l) !! k))), h)
  | _ => (Throw TypeError, h)
  end.

(** The conversion used by template literals. *)
Definition ToString (v : value) : M string :=
  match v with
  | VUndefined => ret "undefined"
  | VNull => ret "null"
  | VBool b => ret (if b then "true" else "false")
  | VString s => ret s
  | VSymbol _ => throw TypeError
  | VNumber _ | VBigInt _ | VRef _ => unmodelled
  end.

(** [ToBoolean v], the test of [if (v)] and of [v && ...]: the falsy values
    are [undefined], [null], [false], the zeros and [NaN], [0n] and the empty
    string. *)
Definition ToBoolean (v : value) : bool :=
  match v with
  | VUndefined | VNull => false
  | VBool b => b
  | VNumber x => negb (PrimFloat.is_zero x || PrimFloat.is_nan x)
  | VBigInt z => negb (bool_decide (z = 0%Z))
  | VString s => negb (bool_decide (s = ""))
  | VSymbol _ | VRef _ => true
  end.

(** The functions of the runtime library that the module calls and does not
    define.  The results below hold for every such runtime. *)
Class Runtime : Type := {
  (** [Number::toString(x)], the text of a number in a template literal *)
  NumberToString : float → string;
  (** the conversion of an object to a string, which runs its [toString]
      or [valueOf] method *)
  ObjectToString : loc → M string;
  (** [String.prototype.toUpperCase] *)
  StringToUpperCase : string → string;
  (** [Number.prototype.toFixed], for a number of digits within its range *)
  NumberToFixed : float → nat → string;
  (** [Object.keys(o).length] *)
  ObjectKeysLength : loc → M float
}.

(** [ToString] with the conversions of the runtime: what a template literal
    does to each substituted value. *)
Definition ToStringR {R : Runtime} (v : value) : M string :=
  match v with
  | VNumber x => ret (NumberToString x)
  | VBigInt z => ret (pretty z)
  | VRef l => ObjectToString l
  | _ => ToString v
  end.

(** [Array.isArray(v)] *)
Definition isArray (v : value) : M bool := λ h,
  match v with
  | VRef l => (Ok (is_array (obj_at h l)), h)
  | _ => (Ok false, h)
  end.

(** The method calls [v.toUpperCase()] and [v.toFixed(digits)] on a
    primitive receiver; on [null] and [undefined] the read of the method
    throws. *)
Definition toUpperCase {R : Runtime} (v : value) : M value :=
  match v with
  | VString s => ret (VString (StringToUpperCase s))
  | VUndefined | VNull => throw TypeError
  | _ => unmodelled
  end.

Definition toFixed {R : Runtime} (v : value) (digits : nat) : M value :=
  match v with
  | VNumber x => ret (VString (NumberToFixed x digits))
  | VUndefined | VNull => throw TypeError
  | _ => unmodelled
  end.

(** [Object.keys(v).length], for an object [v] *)
Definition keysLength {R : Runtime} (v : value) : M value :=
  match v with
  | VRef l => λ h, match ObjectKeysLength l h with
                   | (Ok n, h') => (Ok (VNumber n), h')
                   | (Throw e, h') => (Throw e, h')
                   | (Unmodelled, h') => (Unmodelled, h')
                   end
  | VUndefined | VNull => throw TypeError
  | _ => unmodelled
  end.

(** ** Record shapes *)

(** The primitive kinds a field of a shape can have, and the tag [typeof]
    gives to the values of each. *)
Inductive kind : Type := KString | KNumber | KBoolean.

Definition kind_tag (k : kind) : string :=
  match k with
  | KString => "string"
  | KNumber => "number"
  | KBoolean => "boolean"
  end.

Definition shape : Type := list (string * kind).

(** [type UserOrder = { id: string; type: string; price: number;
    quantity: number; delivery: string }] *)
Definition UserOrder : shape :=
  [("id", KString); ("type", KString); ("price", KNumber);
   ("quantity", KNumber); ("delivery", KString)].


(** ** The guards of the module *)

Section Guards.
Local Open Scope js_scope.

(** [typeof e === tag], for an expression [e]. *)
Definition typeof_is (e : M value) (tag : string) : M bool :=
  x <- e ;; t <- typeof x ;; strict_eq t (VString tag).

(** [function order(obj: any): obj is UserOrder] *)
Definition order (obj : value) : M bool :=
  typeof_is (ret obj) "object" &&&
  strict_ne obj VNull &&&
  typeof_is (get obj "type") "string" &&&
  typeof_is (get obj "id") "string" &&&
  typeof_is (get obj "delivery") "string" &&&
  typeof_is (get obj "price") "number" &&&
  typeof_is (get obj "quantity") "number".

(** [function isUser(obj: unknown): obj is User] *)
Definition isUser (obj : value) : M bool :=
  typeof_is (ret obj) "object" &&&
  strict_ne obj VNull &&&
  has_property "name" obj &&&
  typeof_is (get obj "name") "string" &&&
  has_property "email" obj &&&
  typeof_is (get obj "email") "string" &&&
  has_property "age" obj &&&
  typeof_is (get obj "age") "number".

(** [function isString(str: unknown): str is string] *)
Definition isString (str : value) : M bool :=
  typeof_is (ret str) "string".

End Guards.

(** [function orderDelivery(item: UserOrder | string)] *)
Definition orderDelivery {R : Runtime} (item : value) : M value :=
  (guard <- order item ;;
   if guard then
     id <- get item "id" ;; id <- ToStringR id ;;
     type <- get item "type" ;; type <- ToStringR type ;;
     delivery <- get item "delivery" ;; delivery <- ToStringR delivery ;;
     ret (VString ("Delivering " ++ id ++ " of type: " ++ type
                   ++ " with Delivery " ++ delivery))
   else
     item <- ToStringR item ;;
     ret (VString ("Cannot deliver: " ++ item)))%js.

(** ** The other narrowing examples *)

Section Narrowing.
Context {R : Runtime}.
Local Open Scope js_scope.

(** [function getDataType(data: string | boolean | number | object)] *)
Definition getDataType (data : value) : M value :=
  c <- typeof_is (ret data) "string" ;;
  if c then
    s <- ToStringR data ;; ret (VString ("Data Type of " ++ s ++ " is string"))
  else
  c <- typeof_is (ret data) "boolean" ;;
  if c then
    s <- ToStringR data ;; ret (VString ("Data Type of " ++ s ++ " is boolean"))
  else
  c <- typeof_is (ret data) "number" ;;
  if c then
    s <- ToStringR data ;; ret (VString ("Data Type of " ++ s ++ " is number"))
  else
    s <- ToStringR data ;; ret (VString ("Data Type of " ++ s ++ " is object")).

(** [function getData(data?: object)]; a call without argument passes
    [undefined]. *)
Definition getData (data : value) : M value :=
  if ToBoolean data then
    s <- ToStringR data ;; ret (VString ("Data: " ++ s))
  else ret (VString "Data is not provided").

(** [function orderProduct(order: Product)]: the [switch] compares
    [order.type] with each label by [===]; the default clause returns the
    argument. *)
Definition orderProduct (order : value) : M value :=
  tag <- get order "type" ;;
  if strict_equal tag (VString "Tech") then
    fee <- get order "handlingFee" ;; fee <- ToStringR fee ;;
    ret (VString ("Tech Product with handling fee: " ++ fee))
  else if strict_equal tag (VString "Medical") then
    fee <- get order "handlingFee" ;; fee <- ToStringR fee ;;
    ret (VString ("Medical Product with handling fee: " ++ fee))
  else if strict_equal tag (VString "Cloth") then
    fee <- get order "handlingFee" ;; fee <- ToStringR fee ;;
    ret (VString ("Cloth Product with handling fee: " ++ fee))
  else ret order.

(** [function processUnknownData(data: unknown)] *)
Definition processUnknownData (data : value) : M value :=
  c <- typeof_is (ret data) "string" ;;
  if c then toUpperCase data else
  c <- typeof_is (ret data) "number" ;;
  if c then toFixed data 2 else
  c <- isArray data ;;
  if c then
    n <- get data "length" ;; n <- ToStringR n ;;
    ret (VString ("Array with " ++ n ++ " items"))
  else
  c <- ret (ToBoolean data) &&& typeof_is (ret data) "object" ;;
  if c then keysLength data
  else ret (VString "Unknown type").

(** [function badTypePredicate(value: any): value is string] *)
Definition badTypePredicate (value : value) : M bool :=
  typeof_is (ret value) "number".

(** [function goodTypePredicate(value: any): value is string] *)
Definition goodTypePredicate (value : value) : M bool :=
  typeof_is (ret value) "string".

End Narrowing.

(** The copies of the guards in the trailing part of the file. *)
Module Duplicate.
Local Open Scope js_scope.

(** [function order(obj: any): obj is UserOrder], second copy *)
Definition order (obj : value) : M bool :=
  typeof_is (ret obj) "object" &&&
  strict_ne obj VNull &&&
  typeof_is (get obj "type") "string" &&&
  typeof_is (get obj "id") "number" &&&
  typeof_is (get obj "delivery") "string".

(** [function isString(str: unknown): boolean { return isString(str); }]

    [fuel] bounds the depth of nested calls; [None] means that the call has
    not returned within that depth. *)
Fixpoint isString (fuel : nat) (str : value) (h : heap) : option (outcome bool * heap) :=
  match fuel with
  | O => None
  | S fuel => isString fuel str h
  end.

(** The same call as a big-step judgement: [isString(str)] returns [r] when
    the call in its body returns [r].  There is no other rule. *)
Inductive isString_returns (str : value) (h : heap) : outcome bool → Prop :=
  | isString_call (r : outcome bool) :
      isString_returns str h r → isString_returns str h r.

(** The fields this copy looks at, with the kinds it expects. *)
Definition checked : shape :=
  [("type", KString); ("id", KNumber); ("delivery", KString)].

(** [function orderDelivery(item: UserOrder | string)], second copy: there
    is no [return] after the [if], so the call yields [undefined] when the
    guard fails. *)
Definition orderDelivery {R : Runtime} (item : value) : M value :=
  guard <- order item ;;
  if guard then
    id <- get item "id" ;; id <- ToStringR id ;;
    type <- get item "type" ;; type <- ToStringR type ;;
    delivery <- get item "delivery" ;; delivery <- ToStringR delivery ;;
    ret (VString ("Delvering " ++ id ++ " of type: " ++ type
                  ++ " with Delivery " ++ delivery))
  else ret VUndefined.

(** [function orderProduct(order: Product)], second copy: no default
    clause. *)
Definition orderProduct (order : value) : M value :=
  tag <- get order "type" ;;
  if strict_equal tag (VString "Tech") then ret (VString "Tech Product")
  else if strict_equal tag (VString "Medical") then ret (VString "Medical Product")
  else if strict_equal tag (VString "Cloth") then ret (VString "Cloth Product")
  else ret VUndefined.

End Duplicate.

(** ** Accessor properties *)

(** The guard and its caller over candidates whose properties may be
    accessors. *)
Module Accessors.
Local Open Scope js_scope.

(** The getters of the objects: [acc l k] is the getter of the property [k]
    of the object at [l] when that property is an accessor, or when the
    object is a proxy with a [get] trap.  A getter is given by what a call
    of it does: it can return any value, throw, and write to the heap. *)
Abbreviation table := (loc → string → option (M value)).

(** Property read [v.k]: the call of the getter when there is one, the read
    of the data property otherwise. *)
Definition read (acc : table) (v : value) (k : string) : M value :=
  match v with
  | VRef l =>
      match acc l k with
      | Some getter => getter
      | None => get v k
      end
  | _ => get v k
  end.

(** [function order(obj: any): obj is UserOrder] *)
Definition order (acc : table) (obj : value) : M bool :=
  typeof_is (ret obj) "object" &&&
  strict_ne obj VNull &&&
  typeof_is (read acc obj "type") "string" &&&
  typeof_is (read acc obj "id") "string" &&&
  typeof_is (read acc obj "delivery") "string" &&&
  typeof_is (read acc obj "price") "number" &&&
  typeof_is (read acc obj "quantity") "number".

(** [function orderDelivery(item: UserOrder | string)] *)
Definition orderDelivery {R : Runtime} (acc : table) (item : value) : M value :=
  guard <- order acc item ;;
  if guard then
    id <- read acc item "id" ;; id <- ToStringR id ;;
    type <- read acc item "type" ;; type <- ToStringR type ;;
    delivery <- read acc item "delivery" ;; delivery <- ToStringR delivery ;;
    ret (VString ("Delivering " ++ id ++ " of type: " ++ type
                  ++ " with Delivery " ++ delivery))
  else
    item <- ToStringR item ;;
    ret (VString ("Cannot deliver: " ++ item)).

End Accessors.

(** No object has a getter. *)
Definition no_accessors : Accessors.table := λ _ _, None.

(** The five fields that [order] reads are data properties of the
    candidate, or absent. *)
Definition data_fields (acc : Accessors.table) (v : value) : Prop :=
  ∀ l f, v = VRef l → f ∈ UserOrder.*1 → acc l f = None.




(** ** Candidates against shapes *)

(** The field [f] of a candidate: only objects carry fields. *)
Definition field (h : heap) (v : value) (f : string) : option value :=
  match v with
  | VRef l => props (obj_at h l) !! f
  | _ => None
  end.

Definition field_has_kind (h : heap) (v : value) (fk : string * kind) : bool :=
  match field h v fk.1 with
  | Some x => bool_decide (typeof_tag h x = kind_tag fk.2)
  | None => false
  end.

(** What the guards decide: the candidate is a non-null value that [typeof]
    calls an object, and every field of the shape is present with a value
    of the expected kind. *)
Definition conformsb (sh : shape) (h : heap) (v : value) : bool :=
  bool_decide (typeof_tag h v = "object") && negb (strict_equal v VNull)
  && forallb (field_has_kind h v) sh.

Definition conforms (sh : shape) (h : heap) (v : value) : Prop :=
  typeof_tag h v = "object" ∧ v ≠ VNull ∧
  ∀ f k, (f, k) ∈ sh → ∃ x, field h v f = Some x ∧ typeof_tag h x = kind_tag k.


(** Whether the candidate is an array. *)
Definition array_flag (h : heap) (v : value) : bool :=
  match v with
  | VRef l => is_array (obj_at h l)
  | _ => false
  end.

(** The candidate [VRef l] with one more field: [f] holding [x]. *)
Definition add_field (l : loc) (f : string) (x : value) (h : heap) : heap :=
  let o := obj_at h l in
  <[l := Object (callable o) (is_array o) (<[f := x]> (props o))]> h.

(** The members of the parameter type [UserOrder | string] of
    [orderDelivery]: the objects that have the fields of [UserOrder] with
    the declared kinds, and the strings. *)
Definition item_type (h : heap) (v : value) : Prop :=
  conforms UserOrder h v ∨ ∃ s, v = VString s.

(** ** Sample candidates *)

Definition order_fields : gmap string value :=
  list_to_map [("id", VString "123"); ("type", VString "express");
               ("price", VNumber 100%float); ("quantity", VNumber 1%float);
               ("delivery", VString "fast")].

(** [{id: "123", type: "express", price: 100, quantity: 1, delivery: "fast"}] *)
Definition valid_order : heap := {[ 1%positive := plain order_fields ]}.

(** [Object.assign([], {id: "123", ..., delivery: "fast"})]: an array that
    carries the five properties. *)
Definition array_order : heap :=
  {[ 1%positive := array (<["length" := VNumber 0%float]> order_fields) ]}.

(** [{id: "123", type: "express"}] *)
Definition short_order : heap :=
  {[ 1%positive := plain (list_to_map [("id", VString "123"); ("type", VString "express")]) ]}.

(** [{id: 123, type: "express", price: 100, quantity: 1, delivery: "fast"}] *)
Definition numeric_id_order : heap :=
  {[ 1%positive := plain (<["id" := VNumber 123%float]> order_fields) ]}.


Definition candidate : value := VRef 1%positive.

(** ** A runtime to run the examples *)

(** The integer an integral double stands for. *)
Definition integral (x : float) : option Z :=
  match Prim2SF x with
  | S754_zero _ => Some 0%Z
  | S754_finite s m e =>
      let n := if (0 <=? e)%Z then Some (Z.pos m * 2 ^ e)%Z
               else if (Z.pos m mod 2 ^ (- e) =? 0)%Z then Some (Z.pos m / 2 ^ (- e))%Z
               else None in
      (λ n, if s then (- n)%Z else n) <$> n
  | _ => None
  end.

(** The decimal text of an integral double, which is its [toString] below
    [10^21]; this runtime prints no other number. *)
Definition number_text (x : float) : string :=
  match integral x with
  | Some n => pretty n
  | None => if PrimFloat.is_nan x then "NaN" else ""
  end.

Fixpoint upper_ascii (s : string) : string :=
  match s with
  | EmptyString => EmptyString
  | String c s =>
      let n := Ascii.nat_of_ascii c in
      String (if (97 <=? n)%nat && (n <=? 122)%nat then Ascii.ascii_of_nat (n - 32) else c)
             (upper_ascii s)
  end.

Fixpoint zeros (n : nat) : string :=
  match n with
  | O => ""
  | S n => "0" ++ zeros n
  end.

Definition sample_runtime : Runtime := {|
  NumberToString := number_text;
  ObjectToString := λ _, ret "[object Object]";
  StringToUpperCase := upper_ascii;
  NumberToFixed := λ x digits, number_text x ++ "." ++ zeros digits;
  ObjectKeysLength := λ l h,
    (Ok (PrimFloat.of_uint63 (Uint63Axioms.of_Z (Z.of_nat (size (props (obj_at h l)))))), h)
|}.

(** [{type: "Tech", handlingFee: 50}] *)
Definition tech_product : heap :=
  {[ 1%positive := plain (list_to_map [("type", VString "Tech");
                                       ("handlingFee", VNumber 50%float)]) ]}.

(** [{type: "Food", handlingFee: 5}], outside [Product] *)
Definition food_product : heap :=
  {[ 1%positive := plain (list_to_map [("type", VString "Food");
                                       ("handlingFee", VNumber 5%float)]) ]}.

(** [{name: "Ada", email: "ada@example.org", age: 36}] *)
Definition valid_user : heap :=
  {[ 1%positive := plain (list_to_map [("name", VString "Ada");
        ("email", VString "ada@example.org"); ("age", VNumber 36%float)]) ]}.





(** The order of [valid_order] with one more property,
    [get note() { this.seen = true; throw new TypeError("no") }] *)
Definition hostile_note : Accessors.table := λ l k,
  if bool_decide (l = 1%positive ∧ k = "note")
  then Some (λ h, (Throw TypeError, add_field 1%positive "seen" (VBool true) h))
  else None.

(** [Object.assign(() => {}, {id: "123", type: "express", price: 100,
    quantity: 1, delivery: "fast"})]: a function that carries the five
    properties. *)
Definition callable_order : heap := {[ 1%positive := function order_fields ]}.

(** A runtime in which the conversion of an object to a string throws, as
    it does for an object whose [toString] and [valueOf] both return
    objects. *)
Definition throwing_runtime : Runtime := {|
  NumberToString := number_text;
  ObjectToString := λ _, throw TypeError;
  StringToUpperCase := upper_ascii;
  NumberToFixed := λ x digits, number_text x ++ "." ++ zeros digits;
  ObjectKeysLength := λ l h,
    (Ok (PrimFloat.of_uint63 (Uint63Axioms.of_Z (Z.of_nat (size (props (obj_at h l)))))), h)
|}.

(** Membership of a field in a shape given as a literal list. *)
Ltac in_shape := apply list_elem_of_In; simpl; tauto.

(** ** Running the guards *)

Example order_valid : order candidate valid_order = (Ok true, valid_order).
Proof. vm_compute. reflexivity. Qed.

Example order_short : order candidate short_order = (Ok false, short_order).
Proof. vm_compute. reflexivity. Qed.

Example order_numeric_id : order candidate numeric_id_order = (Ok false, numeric_id_order).
Proof. vm_compute. reflexivity. Qed.

Example order_string : order (VString "invalid") ∅ = (Ok false, ∅).
Proof. reflexivity. Qed.

Example orderDelivery_valid :
  orderDelivery (R := sample_runtime) candidate valid_order
  = (Ok (VString "Delivering 123 of type: express with Delivery fast"), valid_order).
Proof. vm_compute. reflexivity. Qed.

Example orderDelivery_string :
  orderDelivery (R := sample_runtime) (VString "invalid") ∅ = (Ok (VString "Cannot deliver: invalid"), ∅).
Proof. reflexivity. Qed.

(** ** Evaluation lemmas *)

Section Evaluation.
Local Open Scope js_scope.

Lemma andM_ok (a b : M bool) (h : heap) (x y : bool) :
  a h = (Ok x, h) → b h = (Ok y, h) → (a &&& b) h = (Ok (x && y), h).
Proof.
  intros Ha Hb. unfold andM, bind. rewrite Ha.
  destruct x; [exact Hb | reflexivity].
Qed.

(** The right operand of [&&] is not evaluated after a false left operand,
    whatever it would do. *)
Lemma andM_false (a b : M bool) (h : heap) :
  a h = (Ok false, h) → (a &&& b) h = (Ok false, h).
Proof. intros Ha. unfold andM, bind. now rewrite Ha. Qed.

Lemma typeof_is_ref (h : heap) (l : loc) :
  typeof_is (ret (VRef l)) "object" h = (Ok (negb (callable (obj_at h l))), h).
Proof.
  unfold typeof_is, bind, ret, typeof, strict_eq, ret; simpl.
  now destruct (callable (obj_at h l)).
Qed.

Lemma typeof_is_field (h : heap) (l : loc) (f : string) (k : kind) :
  typeof_is (get (VRef l) f) (kind_tag k) h
  = (Ok (field_has_kind h (VRef l) (f, k)), h).
Proof.
  unfold typeof_is, bind, get, typeof, strict_eq, ret, field_has_kind; simpl.
  destruct (props (obj_at h l) !! f) as [x|]; simpl.
  - reflexivity.
  - now destruct k.
Qed.

End Evaluation.

Lemma strict_ne_ref (h : heap) (l : loc) : strict_ne (VRef l) VNull h = (Ok true, h).
Proof. reflexivity. Qed.



(** [order] computes the verdict [conformsb UserOrder] and hands the heap
    back as it received it. *)
Lemma order_eval (h : heap) (v : value) :
  order v h = (Ok (conformsb UserOrder h v), h).
Proof.
  destruct v; try reflexivity.
  etransitivity.
  { unfold order. repeat eapply andM_ok.
    - apply typeof_is_ref.
    - reflexivity.
    - apply (typeof_is_field h l "type" KString).
    - apply (typeof_is_field h l "id" KString).
    - apply (typeof_is_field h l "delivery" KString).
    - apply (typeof_is_field h l "price" KNumber).
    - apply (typeof_is_field h l "quantity" KNumber). }
  unfold conformsb; simpl forallb; simpl typeof_tag.
  destruct (callable (obj_at h l)); simpl; [reflexivity|].
  do 2 f_equal.
  destruct (field_has_kind h (VRef l) ("type", KString)),
           (field_has_kind h (VRef l) ("id", KString)),
           (field_has_kind h (VRef l) ("delivery", KString)),
           (field_has_kind h (VRef l) ("price", KNumber)),
           (field_has_kind h (VRef l) ("quantity", KNumber)); reflexivity.
Qed.


Lemma order_copy_eval (h : heap) (v : value) :
  Duplicate.order v h = (Ok (conformsb Duplicate.checked h v), h).
Proof.
  destruct v; try reflexivity.
  etransitivity.
  { unfold Duplicate.order. repeat eapply andM_ok.
    - apply typeof_is_ref.
    - apply strict_ne_ref.
    - apply (typeof_is_field h l "type" KString).
    - apply (typeof_is_field h l "id" KNumber).
    - apply (typeof_is_field h l "delivery" KString). }
  unfold conformsb; simpl forallb; simpl typeof_tag.
  destruct (callable (obj_at h l)); simpl; [reflexivity|].
  now rewrite andb_true_r, !andb_assoc.
Qed.

(** The boolean verdict and the property it decides. *)
Lemma field_has_kind_spec (h : heap) (v : value) (f : string) (k : kind) :
  field_has_kind h v (f, k) = true
  ↔ ∃ x, field h v f = Some x ∧ typeof_tag h x = kind_tag k.
Proof.
  unfold field_has_kind; simpl. destruct (field h v f) as [x|].
  - rewrite bool_decide_eq_true. split.
    + intros Hx. exists x. auto.
    + intros (y & Hy & Hk). now inversion Hy; subst.
  - split; [discriminate|]. intros (y & Hy & _). discriminate.
Qed.

Lemma conformsb_spec (sh : shape) (h : heap) (v : value) :
  conformsb sh h v = true ↔ conforms sh h v.
Proof.
  unfold conformsb, conforms.
  rewrite !andb_true_iff, bool_decide_eq_true, negb_true_iff, forallb_forall.
  split.
  - intros [[Ht Hn] Hf]. split; [exact Ht|]. split.
    + intros ->. discriminate.
    + intros f k Hin. apply field_has_kind_spec, Hf. now apply list_elem_of_In.
  - intros (Ht & Hn & Hf). split; [split; [exact Ht|]|].
    + destruct v; try reflexivity. now destruct Hn.
    + intros [f k] Hin. apply field_has_kind_spec, Hf. now apply list_elem_of_In.
Qed.

Lemma order_true_conforms (h : heap) (v : value) :
  order v h = (Ok true, h) ↔ conforms UserOrder h v.
Proof.
  rewrite order_eval, <- conformsb_spec. split.
  - now intros [= ->].
  - now intros ->.
Qed.


(** ** The verdict of the guards *)




(** C2: the two copies of [order] disagree.  On the order of the spec's
    scenario the first copy answers true and the second false, and on the
    same record with a numeric [id] it is the other way round; whatever the
    first copy accepts has the declared type [UserOrder], where [id] is a
    string, and whatever the second copy accepts has a numeric [id] and so
    does not have that type. *)
Theorem order_copies_disagree :
  (order candidate valid_order = (Ok true, valid_order) ∧
   Duplicate.order candidate valid_order = (Ok false, valid_order)) ∧
  (order candidate numeric_id_order = (Ok false, numeric_id_order) ∧
   Duplicate.order candidate numeric_id_order = (Ok true, numeric_id_order)) ∧
  ("id", KString) ∈ UserOrder ∧
  (∀ h v, order v h = (Ok true, h) → conforms UserOrder h v) ∧
  (∀ h v, Duplicate.order v h = (Ok true, h) →
     (∃ x, field h v "id" = Some x ∧ typeof_tag h x = "number") ∧
     ¬ conforms UserOrder h v).
Proof.
  split; [split; vm_compute; reflexivity|].
  split; [split; vm_compute; reflexivity|].
  split; [apply list_elem_of_here|].
  split; [intros h v; apply order_true_conforms|].
  intros h v. rewrite order_copy_eval. intros [= Hc].
  apply conformsb_spec in Hc. destruct Hc as (_ & _ & Hf).
  destruct (Hf "id" KNumber) as (x & Hx & Hk).
  { in_shape. }
  split; [now exists x|].
  intros (_ & _ & Hf'). destruct (Hf' "id" KString) as (y & Hy & Hk').
  { apply list_elem_of_here. }
  rewrite Hx in Hy. injection Hy as <-. rewrite Hk in Hk'. discriminate.
Qed.

Lemma order_copies_disagree_witness :
  conforms UserOrder valid_order candidate ∧
  ¬ conforms UserOrder numeric_id_order candidate.
Proof.
  destruct order_copies_disagree as ((Ha & _) & (_ & Hb) & _ & Hfst & Hsnd).
  split.
  - exact (Hfst valid_order candidate Ha).
  - exact (proj2 (Hsnd numeric_id_order candidate Hb)).
Defined.

(** C3: on [null] the guards answer false, and they do so without reading a
    field of [null]: such a read throws a [TypeError], and no error is
    thrown. *)
Theorem order_null (h : heap) :
  order VNull h = (Ok false, h) ∧
  isUser VNull h = (Ok false, h) ∧
  Duplicate.order VNull h = (Ok false, h) ∧
  ∀ f, get VNull f h = (Throw TypeError, h).
Proof. repeat split. Qed.





(** ** Extra fields *)










(** ** Reads through getters *)

Lemma read_data (acc : Accessors.table) (v : value) (f : string) :
  data_fields acc v → f ∈ UserOrder.*1 → Accessors.read acc v f = get v f.
Proof.
  intros Hd Hf. destruct v as [| | | | | | |l]; try reflexivity.
  cbn. now rewrite (Hd l f eq_refl Hf).
Qed.

(** On a candidate whose five fields are data properties the guard over
    getters is the guard over data properties. *)
Lemma order_data (acc : Accessors.table) (v : value) :
  data_fields acc v → Accessors.order acc v = order v.
Proof.
  intros Hd. unfold Accessors.order, order.
  now rewrite !(read_data acc v) by (assumption || in_shape).
Qed.

Lemma orderDelivery_data {R : Runtime} (acc : Accessors.table) (v : value) :
  data_fields acc v → Accessors.orderDelivery acc v = orderDelivery v.
Proof.
  intros Hd. unfold Accessors.orderDelivery, orderDelivery.
  rewrite (order_data acc v Hd).
  now rewrite !(read_data acc v) by (assumption || in_shape).
Qed.



Section Computations.
Local Open Scope js_scope.
Context {A B : Type}.



End Computations.







(** ** Faults *)




(** ** Effects *)




(** ** The caller *)

Section Caller.
Context {R : Runtime}.

Lemma orderDelivery_accepted (h : heap) (item : value) :
  order item h = (Ok true, h) →
  ∃ id type delivery,
    field h item "id" = Some (VString id) ∧
    field h item "type" = Some (VString type) ∧
    field h item "delivery" = Some (VString delivery) ∧
    orderDelivery item h
    = (Ok (VString ("Delivering " ++ id ++ " of type: " ++ type
                    ++ " with Delivery " ++ delivery)), h).
Proof.
  intros Ho. pose proof (proj1 (order_true_conforms h item) Ho) as (Ht & Hn & Hf).
  destruct (Hf "id" KString) as (x1 & Hx1 & Hk1); [in_shape|].
  destruct (Hf "type" KString) as (x2 & Hx2 & Hk2); [in_shape|].
  destruct (Hf "delivery" KString) as (x3 & Hx3 & Hk3); [in_shape|].
  assert (Hstr : ∀ x, typeof_tag h x = kind_tag KString → ∃ s, x = VString s).
  { intros x. destruct x; simpl; try discriminate; eauto.
    destruct (callable (obj_at h l)); discriminate. }
  destruct (Hstr _ Hk1) as [id ->]. destruct (Hstr _ Hk2) as [type ->].
  destruct (Hstr _ Hk3) as [delivery ->].
  exists id, type, delivery. repeat split; try assumption.
  destruct item as [| | | | | | |l]; try discriminate.
  cbn [field] in Hx1, Hx2, Hx3.
  unfold orderDelivery, bind. rewrite Ho. cbn [get].
  rewrite Hx1. cbn. rewrite Hx2. cbn. rewrite Hx3. reflexivity.
Qed.

Lemma orderDelivery_rejected (h : heap) (item : value) :
  order item h = (Ok false, h) →
  orderDelivery item h
  = bind (ToStringR item) (λ s, ret (VString ("Cannot deliver: " ++ s))) h.
Proof. intros Ho. unfold orderDelivery. unfold bind at 1. now rewrite Ho. Qed.

(** C9, as the code behaves, for an item whose five fields are data
    properties or absent.  [orderDelivery] returns the description of the
    delivery when [order] accepts the item.  When [order] rejects it, the
    result is the fallback message followed by the conversion of the item
    to a string: for a string, the string itself; for any other item, its
    conversion when there is one, and the error of the conversion when it
    throws.  Whatever [orderDelivery] returns is a string, never
    [undefined]. *)
Theorem orderDelivery_result (acc : Accessors.table) (h : heap) (item : value) :
  data_fields acc item →
  (∃ b : bool, Accessors.order acc item h = (Ok b, h)) ∧
  (Accessors.order acc item h = (Ok true, h) →
   ∃ id type delivery,
     field h item "id" = Some (VString id) ∧
     field h item "type" = Some (VString type) ∧
     field h item "delivery" = Some (VString delivery) ∧
     Accessors.orderDelivery acc item h
     = (Ok (VString ("Delivering " ++ id ++ " of type: " ++ type
                     ++ " with Delivery " ++ delivery)), h)) ∧
  (Accessors.order acc item h = (Ok false, h) →
   (∀ s h', ToStringR item h = (Ok s, h') →
      Accessors.orderDelivery acc item h = (Ok (VString ("Cannot deliver: " ++ s)), h')) ∧
   (∀ e h', ToStringR item h = (Throw e, h') →
      Accessors.orderDelivery acc item h = (Throw e, h'))) ∧
  (∀ s, item = VString s →
     Accessors.orderDelivery acc item h = (Ok (VString ("Cannot deliver: " ++ s)), h)) ∧
  (∀ r h', Accessors.orderDelivery acc item h = (Ok r, h') → ∃ s, r = VString s).
Proof.
  intros Hd. rewrite (order_data acc item Hd), (orderDelivery_data acc item Hd).
  split; [rewrite order_eval; eauto|].
  split; [apply orderDelivery_accepted|].
  split.
  { intros Ho. rewrite (orderDelivery_rejected h item Ho). unfold bind.
    split; intros ? h' ->; reflexivity. }
  split; [intros s ->; reflexivity|].
  intros r h'. destruct (conformsb UserOrder h item) eqn:Hc.
  - assert (Ho : order item h = (Ok true, h)) by now rewrite order_eval, Hc.
    destruct (orderDelivery_accepted h item Ho) as (id & type & delivery & _ & _ & _ & ->).
    intros [= <- <-]. eauto.
  - assert (Ho : order item h = (Ok false, h)) by now rewrite order_eval, Hc.
    rewrite (orderDelivery_rejected h item Ho). unfold bind.
    destruct (ToStringR item h) as [[s| |] h'']; try discriminate.
    intros [= <- <-]. eauto.
Qed.

End Caller.

Lemma orderDelivery_result_witness :
  Accessors.orderDelivery (R := sample_runtime) hostile_note candidate short_order
  = (Ok (VString "Cannot deliver: [object Object]"), short_order).
Proof.
  assert (Hd : data_fields hostile_note candidate).
  { intros l f _ Hf. unfold hostile_note.
    apply list_elem_of_In in Hf. cbn in Hf.
    case_bool_decide as Hn; [|reflexivity].
    destruct Hn as [_ ->]. intuition discriminate. }
  destruct (orderDelivery_result (R := sample_runtime) hostile_note short_order candidate Hd)
    as (_ & _ & Hno & _).
  apply Hno.
  - vm_compute. reflexivity.
  - reflexivity.
Defined.

(** C9, as stated, fails.  A function that carries the five properties is
    a [UserOrder] for the type checker; [order] rejects it, since [typeof]
    calls it a function, and the fallback message converts it to a string:
    when that conversion throws, [orderDelivery] throws.  It also throws on
    a symbol, which a template literal cannot convert. *)
Lemma orderDelivery_throws :
  forallb (field_has_kind callable_order candidate) UserOrder = true ∧
  Accessors.order no_accessors candidate callable_order = (Ok false, callable_order) ∧
  Accessors.orderDelivery (R := throwing_runtime) no_accessors candidate callable_order
  = (Throw TypeError, callable_order) ∧
  Accessors.orderDelivery (R := sample_runtime) no_accessors (VSymbol 1%positive) ∅
  = (Throw TypeError, ∅).
Proof. repeat split; vm_compute; reflexivity. Qed.

(** ** The copy of [isString] *)

(** C10: the copy of [isString] in the trailing part of the file never
    returns: no depth of nested calls is enough for it to produce a result,
    and the judgement of its returns is empty; the exported [isString]
    returns, on every input, whether [typeof] gives the tag of strings. *)
Theorem isString_copy_diverges (str : value) (h : heap) :
  (∀ fuel, Duplicate.isString fuel str h = None) ∧
  (∀ r, ¬ Duplicate.isString_returns str h r) ∧
  isString str h = (Ok (bool_decide (typeof_tag h str = "string")), h).
Proof.
  split; [|split].
  - intros fuel. induction fuel as [|fuel IH]; [reflexivity | exact IH].
  - intros r Hr. induction Hr as [r _ IH]. exact IH.
  - reflexivity.
Qed.

(** ** Runs of the other examples *)

Example getDataType_hello :
  getDataType (R := sample_runtime) (VString "hello") ∅
  = (Ok (VString "Data Type of hello is string"), ∅).
Proof. reflexivity. Qed.

Example getDataType_42 :
  getDataType (R := sample_runtime) (VNumber 42%float) ∅
  = (Ok (VString "Data Type of 42 is number"), ∅).
Proof. vm_compute. reflexivity. Qed.

Example getData_object :
  getData (R := sample_runtime) candidate valid_user
  = (Ok (VString "Data: [object Object]"), valid_user).
Proof. vm_compute. reflexivity. Qed.

Example orderProduct_tech :
  orderProduct (R := sample_runtime) candidate tech_product
  = (Ok (VString "Tech Product with handling fee: 50"), tech_product).
Proof. vm_compute. reflexivity. Qed.

Example processUnknownData_runs :
  processUnknownData (R := sample_runtime) (VString "chai") ∅ = (Ok (VString "CHAI"), ∅) ∧
  processUnknownData (R := sample_runtime) (VNumber 42%float) ∅ = (Ok (VString "42.00"), ∅) ∧
  processUnknownData (R := sample_runtime) candidate array_order
  = (Ok (VString "Array with 0 items"), array_order) ∧
  processUnknownData (R := sample_runtime) candidate valid_user
  = (Ok (VNumber 3%float), valid_user).
Proof. repeat split; vm_compute; reflexivity. Qed.

Lemma typeof_is_ret (h : heap) (v : value) (tag : string) :
  typeof_is (ret v) tag h = (Ok (bool_decide (typeof_tag h v = tag)), h).
Proof. reflexivity. Qed.

(** ** The two sample predicates *)

(** X1: [badTypePredicate] answers true exactly on numbers, so whenever it
    promises a string the value is not one: [goodTypePredicate] and
    [isString] answer false on it. *)
Theorem badTypePredicate_unsound (h : heap) (v : value) :
  (badTypePredicate v h = (Ok true, h) ↔ ∃ x, v = VNumber x) ∧
  (badTypePredicate v h = (Ok true, h) →
   goodTypePredicate v h = (Ok false, h) ∧ isString v h = (Ok false, h)).
Proof.
  destruct v; cbn; try destruct (callable (obj_at h l)); cbn;
    (split; [split; [intros [=] | intros [? [=]]] | intros [=]]);
    eauto.
Qed.

Lemma badTypePredicate_unsound_witness :
  goodTypePredicate (VNumber 42%float) ∅ = (Ok false, ∅).
Proof.
  apply (badTypePredicate_unsound ∅ (VNumber 42%float)). reflexivity.
Defined.

(** ** [getDataType] and [getData] *)

Section GetData.
Context {R : Runtime}.

(** X2: whenever [getDataType] returns, the type it reports is the one
    [typeof] gives for strings, booleans and numbers, and [object] for
    every other value: for objects and [null], and also for functions,
    [undefined] and big integers. *)
Theorem getDataType_label (h h' : heap) (v r : value) :
  getDataType v h = (Ok r, h') →
  ∃ t, r = VString ("Data Type of " ++ t ++ " is "
                    ++ (if bool_decide (typeof_tag h v ∈ ["string"; "boolean"; "number"])
                        then typeof_tag h v else "object")).
Proof.
  unfold getDataType, bind. rewrite typeof_is_ret.
  case_bool_decide as H1;
    [|rewrite typeof_is_ret; case_bool_decide as H2;
      [|rewrite typeof_is_ret; case_bool_decide as H3]];
    cbn beta; destruct (ToStringR v h) as [[s| |] h'']; unfold ret;
    try discriminate; intros [= <- <-]; exists s.
  - now rewrite H1.
  - now rewrite H2.
  - now rewrite H3.
  - rewrite bool_decide_eq_false_2; [reflexivity|].
    rewrite !elem_of_cons, elem_of_nil. tauto.
Qed.

(** X3: among the primitive values [getDataType] throws exactly on the
    symbols, which a template literal cannot convert; on every other
    primitive it returns a string and leaves the heap alone. *)
Theorem getDataType_symbol (h : heap) (v : value) :
  (∀ l, v ≠ VRef l) →
  (getDataType v h = (Throw TypeError, h) ↔ ∃ id, v = VSymbol id) ∧
  ((∀ id, v ≠ VSymbol id) → ∃ s, getDataType v h = (Ok (VString s), h)).
Proof.
  intros Hprim. destruct v as [| |b|x|z|s|id|l]; try (now destruct (Hprim l)).
  all: split; [split|].
  all: try (intros Heq; vm_compute in Heq; discriminate Heq).
  all: try (intros [? [=]]).
  all: try (intros _; eexists; reflexivity).
  - reflexivity.
  - intros Hs. now destruct (Hs id).
Qed.

(** X4: [getData] answers with the fallback message exactly on the falsy
    values ([undefined], so also a call without argument, [null], [false],
    the zeros, [NaN], [0n] and the empty string); it then leaves the heap
    alone. *)
Theorem getData_fallback (h : heap) (v : value) :
  ((getData v h).1 = Ok (VString "Data is not provided") ↔ ToBoolean v = false) ∧
  (ToBoolean v = false → getData v h = (Ok (VString "Data is not provided"), h)).
Proof.
  unfold getData. destruct (ToBoolean v).
  - split; [|discriminate]. split; [|discriminate].
    unfold bind. destruct (ToStringR v h) as [[s| |] h']; cbn; discriminate.
  - split; [split|]; reflexivity.
Qed.

End GetData.

Lemma getDataType_label_witness :
  ∃ t, VString "Data Type of true is boolean"
       = VString ("Data Type of " ++ t ++ " is boolean").
Proof.
  exact (getDataType_label (R := sample_runtime) ∅ ∅ (VBool true) _ eq_refl).
Defined.

Lemma getDataType_symbol_witness :
  ∃ s, getDataType (R := sample_runtime) (VBigInt 12) ∅ = (Ok (VString s), ∅).
Proof.
  apply (getDataType_symbol (R := sample_runtime) ∅ (VBigInt 12)); discriminate.
Defined.

Lemma getData_fallback_witness :
  getData (R := sample_runtime) (VNumber (-0)%float) ∅
  = (Ok (VString "Data is not provided"), ∅).
Proof.
  apply (getData_fallback (R := sample_runtime) ∅ (VNumber (-0)%float)). reflexivity.
Defined.

(** ** [orderProduct] *)

(** X5: on a product, an object whose [type] is one of the three tags and
    whose [handlingFee] is a number, [orderProduct] returns the tag followed
    by the same text in all three cases, and the second copy returns the
    tag followed by [ Product]; neither touches the heap. *)
Theorem orderProduct_product {R : Runtime} (h : heap) (v : value) (t : string) (fee : float) :
  t ∈ ["Tech"; "Medical"; "Cloth"] →
  field h v "type" = Some (VString t) →
  field h v "handlingFee" = Some (VNumber fee) →
  orderProduct v h
  = (Ok (VString (t ++ " Product with handling fee: " ++ NumberToString fee)), h) ∧
  Duplicate.orderProduct v h = (Ok (VString (t ++ " Product")), h).
Proof.
  intros Hin Ht Hfee. destruct v as [| | | | | | |l]; try discriminate.
  cbn [field] in Ht, Hfee.
  rewrite !elem_of_cons, elem_of_nil in Hin.
  unfold orderProduct, Duplicate.orderProduct, bind, get. rewrite Ht. cbn.
  destruct Hin as [->|[->|[->|[]]]];
    repeat first [ rewrite bool_decide_eq_true_2 by reflexivity
                 | rewrite bool_decide_eq_false_2 by discriminate ];
    rewrite ?Hfee; split; reflexivity.
Qed.

Lemma orderProduct_product_witness :
  orderProduct (R := sample_runtime) candidate tech_product
  = (Ok (VString "Tech Product with handling fee: 50"), tech_product).
Proof.
  refine (proj1 (orderProduct_product (R := sample_runtime)
                   tech_product candidate "Tech" 50%float _ _ _)).
  - apply list_elem_of_here.
  - vm_compute. reflexivity.
  - vm_compute. reflexivity.
Defined.

(** X6: on an object whose [type] is none of the three tags, [orderProduct]
    returns its argument, the same object, where the second copy returns
    [undefined]. *)
Theorem orderProduct_default {R : Runtime} (h : heap) (l : loc) :
  (∀ t, t ∈ ["Tech"; "Medical"; "Cloth"] → field h (VRef l) "type" ≠ Some (VString t)) →
  orderProduct (VRef l) h = (Ok (VRef l), h) ∧
  Duplicate.orderProduct (VRef l) h = (Ok VUndefined, h).
Proof.
  intros Hno. cbn [field] in Hno.
  assert (Hne : ∀ t, t ∈ ["Tech"; "Medical"; "Cloth"] →
            strict_equal (default VUndefined (props (obj_at h l) !! "type")) (VString t) = false).
  { intros t Hin. specialize (Hno t Hin).
    destruct (props (obj_at h l) !! "type") as [[]|]; try reflexivity.
    cbn. apply bool_decide_eq_false_2. congruence. }
  unfold orderProduct, Duplicate.orderProduct, bind, get.
  rewrite !Hne by (rewrite !elem_of_cons; tauto).
  split; reflexivity.
Qed.

Lemma orderProduct_default_witness :
  orderProduct (R := sample_runtime) candidate food_product = (Ok candidate, food_product).
Proof.
  refine (proj1 (orderProduct_default (R := sample_runtime) food_product 1%positive _)).
  intros t Hin. vm_compute. intros [= <-].
  rewrite !elem_of_cons, elem_of_nil in Hin.
  destruct Hin as [|[|[|[]]]]; discriminate.
Defined.

(** ** The second copies of [order] and [orderDelivery] *)

Lemma conforms_UserOrder_not_checked (h : heap) (v : value) :
  conforms UserOrder h v → conformsb Duplicate.checked h v = false.
Proof.
  intros (_ & _ & Hf). destruct (conformsb Duplicate.checked h v) eqn:Hc; [|reflexivity].
  apply conformsb_spec in Hc. destruct Hc as (_ & _ & Hf').
  destruct (Hf "id" KString) as (x & Hx & Hk); [in_shape|].
  destruct (Hf' "id" KNumber) as (y & Hy & Hk'); [in_shape|].
  rewrite Hx in Hy. injection Hy as <-. rewrite Hk in Hk'. discriminate.
Qed.

(** X7: the second copy of [orderDelivery] returns [undefined] on every
    member of its parameter type [UserOrder | string]: its guard wants a
    numeric [id], which no [UserOrder] has, and there is no [return] after
    the [if]. *)
Theorem orderDelivery_copy_undefined {R : Runtime} (h : heap) (item : value) :
  item_type h item → Duplicate.orderDelivery item h = (Ok VUndefined, h).
Proof.
  intros Ht. unfold Duplicate.orderDelivery, bind. rewrite order_copy_eval.
  destruct Ht as [Hc | [s ->]].
  - now rewrite (conforms_UserOrder_not_checked _ _ Hc).
  - reflexivity.
Qed.

Lemma orderDelivery_copy_undefined_witness :
  Duplicate.orderDelivery (R := sample_runtime) candidate valid_order
  = (Ok VUndefined, valid_order).
Proof.
  apply (orderDelivery_copy_undefined (R := sample_runtime) valid_order candidate).
  left. apply conformsb_spec. vm_compute. reflexivity.
Defined.



(** ** [isUser] *)





(** ** [processUnknownData] *)

Section ProcessUnknownData.
Context {R : Runtime}.

Lemma processUnknownData_eval (h : heap) (v : value) :
  processUnknownData v h =
  if bool_decide (typeof_tag h v = "string") then toUpperCase v h
  else if bool_decide (typeof_tag h v = "number") then toFixed v 2 h
  else if array_flag h v then
    bind (get v "length") (λ n, bind (ToStringR n) (λ n,
      ret (VString ("Array with " ++ n ++ " items")))) h
  else if ToBoolean v && bool_decide (typeof_tag h v = "object") then keysLength v h
  else (Ok (VString "Unknown type"), h).
Proof.
  unfold processUnknownData. unfold bind at 1. rewrite typeof_is_ret. cbn beta iota.
  case_bool_decide; [reflexivity|].
  unfold bind at 1. rewrite typeof_is_ret. cbn beta iota.
  case_bool_decide; [reflexivity|].
  unfold bind at 1.
  assert (Ha : isArray v h = (Ok (array_flag h v), h)) by now destruct v.
  rewrite Ha. cbn beta iota. destruct (array_flag h v); [reflexivity|].
  unfold bind at 1, andM, bind at 1, ret at 1. cbn beta iota.
  destruct (ToBoolean v); cbn beta iota.
  - rewrite typeof_is_ret. now case_bool_decide.
  - reflexivity.
Qed.

(** X11: [processUnknownData] answers [Unknown type] on [null], on
    [undefined], and on every boolean, big integer, symbol and function (a
    callable object, which is not an array), and leaves the heap alone. *)
Theorem processUnknownData_unknown (h : heap) (v : value) :
  v = VNull ∨
  typeof_tag h v ∈ ["undefined"; "boolean"; "bigint"; "symbol"] ∨
  (typeof_tag h v = "function" ∧ array_flag h v = false) →
  processUnknownData v h = (Ok (VString "Unknown type"), h).
Proof.
  intros Hv. rewrite processUnknownData_eval.
  assert (Hcase : array_flag h v = false ∧
                  (v = VNull ∨ typeof_tag h v ∈ ["undefined"; "boolean"; "bigint";
                                                 "symbol"; "function"])).
  { destruct Hv as [-> | [Hin | [Hf Ha]]].
    - split; [reflexivity | now left].
    - split; [|right; rewrite !elem_of_cons in *; tauto].
      destruct v as [| | | | | | |l]; try reflexivity.
      rewrite !elem_of_cons, elem_of_nil in Hin. cbn in Hin.
      destruct (callable (obj_at h l)); intuition discriminate.
    - split; [exact Ha|]. right. rewrite Hf, !elem_of_cons. tauto. }
  destruct Hcase as [-> [-> | Hin]]; [reflexivity|].
  rewrite !elem_of_cons, elem_of_nil in Hin.
  rewrite !bool_decide_eq_false_2, andb_false_r; [reflexivity|..];
    intros Heq; rewrite Heq in Hin; intuition discriminate.
Qed.

(** X12: when [processUnknownData] returns, its result is a number exactly
    for the objects that are not arrays (the count of their keys), and a
    string for every other value. *)
Theorem processUnknownData_number (h h' : heap) (v r : value) :
  processUnknownData v h = (Ok r, h') →
  ((∃ x, r = VNumber x) ↔
   typeof_tag h v = "object" ∧ v ≠ VNull ∧ array_flag h v = false) ∧
  ((∃ x, r = VNumber x) ∨ (∃ s, r = VString s)).
Proof.
  rewrite processUnknownData_eval.
  case_bool_decide as Hs.
  { destruct v; try discriminate; try (cbn in Hs; destruct (callable _); discriminate).
    intros [= <- <-]. rewrite Hs. split; [split|]; [intros [? [=]]|intros [[=] _]|eauto]. }
  case_bool_decide as Hn.
  { destruct v; try discriminate; try (cbn in Hn; destruct (callable _); discriminate).
    intros [= <- <-]. rewrite Hn. split; [split|]; [intros [? [=]]|intros [[=] _]|eauto]. }
  destruct (array_flag h v) eqn:Ha.
  { unfold bind. destruct (get v "length" h) as [[n| |] h1]; try discriminate.
    destruct (ToStringR n h1) as [[t| |] h2]; try discriminate.
    intros [= <- <-]. split; [split|]; [intros [? [=]]|intros (_ & _ & [=])|eauto]. }
  destruct (ToBoolean v) eqn:Hb; cbn [andb]; [case_bool_decide as Ho|].
  - destruct v as [| | | | | | |l]; try discriminate.
    cbn [keysLength]. destruct (ObjectKeysLength l h) as [[n| |] h1]; try discriminate.
    intros [= <- <-]. split; [split|]; eauto.
  - intros [= <- <-]. split; [split|]; [intros [? [=]]|intros (Ho' & _ & _); contradiction|eauto].
  - intros [= <- <-]. split; [split|]; [intros [? [=]]| |eauto].
    intros (Ho & Hnn & _). destruct v; try discriminate; try contradiction.
Qed.
End ProcessUnknownData.

Lemma processUnknownData_unknown_witness :
  processUnknownData (R := sample_runtime) (VBool true) ∅ = (Ok (VString "Unknown type"), ∅).
Proof.
  apply (processUnknownData_unknown (R := sample_runtime) ∅ (VBool true)).
  right. left. cbn. rewrite !elem_of_cons. tauto.
Defined.

Lemma processUnknownData_number_witness :
  typeof_tag valid_user candidate = "object" ∧ array_flag valid_user candidate = false.
Proof.
  destruct (processUnknownData_number (R := sample_runtime)
              valid_user valid_user candidate (VNumber 3%float)) as [[Hn _] _].
  - vm_compute. reflexivity.
  - destruct Hn as (Ht & _ & Ha); [eauto|]. split; [exact Ht | exact Ha].
Defined.
